(** * SkinCancerDataset (src/prerequisite/dataset_sc.py)

    A shallow embedding of the three methods of [SkinCancerDataset]:
    [__init__], [__len__] and [__getitem__].

    - [dataimage] and [labels] are Python lists, modelled as [list A] and
      [list L]; list subscripting follows CPython's [list_subscript]: a
      negative index is shifted by the length once, and whatever is still
      outside [0, len) raises [IndexError].
    - [transforms] is an arbitrary Python callable: it may keep internal
      state and may raise.  It is modelled as a function into a small
      state-and-exception monad over the callable's own state [St].
    - Python evaluates the tuple [(transforms(dataimage[index]), labels[index])]
      left to right, so [__getitem__] first subscripts [dataimage], then calls
      [transforms], then subscripts [labels]. *)

From Stdlib Require Import ZArith List Lia.
Import ListNotations.
Open Scope Z_scope.

(** Python exceptions that matter here: [IndexError] from a list subscript,
    anything else a transform may raise. *)
Inductive exn : Type :=
| IndexError
| Raised (code : nat).

(** The state-and-exception monad: a computation reads and writes the
    transform's state and either raises or returns. *)
Definition M (St X : Type) : Type := St -> (exn + X) * St.

Definition ret {St X : Type} (x : X) : M St X := fun s => (inr x, s).

Definition bind {St X Y : Type} (m : M St X) (k : X -> M St Y) : M St Y :=
  fun s =>
    match m s with
    | (inl e, s') => (inl e, s')
    | (inr x, s') => k x s'
    end.

(** A pure computation that may raise, lifted into [M]. *)
Definition lift {St X : Type} (r : exn + X) : M St X := fun s => (r, s).

Notation "x <-- m ;; k" := (bind m (fun x => k))
  (at level 61, m at next level, right associativity).

(** CPython [list_subscript] with an integer index. *)
Definition py_index {A : Type} (xs : list A) (i : Z) : exn + A :=
  let n := Z.of_nat (length xs) in
  let j := if i <? 0 then i + n else i in
  if orb (j <? 0) (n <=? j) then inl IndexError
  else match nth_error xs (Z.to_nat j) with
       | Some x => inr x
       | None => inl IndexError
       end.

Section Dataset.

Variables (A L B St : Type).

(** The instance attributes bound by [__init__]. *)
Record SkinCancerDataset : Type := {
  dataimage : list A;
  labels : list L;
  transforms : A -> M St B
}.

(** [__init__(me, dataimage, labels, transforms)]: three attribute
    assignments, nothing else. *)
Definition init (dataimage0 : list A) (labels0 : list L)
  (transforms0 : A -> M St B) : M St SkinCancerDataset :=
  ret {| dataimage := dataimage0; labels := labels0;
         transforms := transforms0 |}.

(** [__len__(me)]: [return len(me.dataimage)]. *)
Definition len_ (me : SkinCancerDataset) : M St Z :=
  ret (Z.of_nat (length (dataimage me))).

(** [__getitem__(me, index)]:
    [return me.transforms(me.dataimage[index]), me.labels[index]]. *)
Definition getitem (me : SkinCancerDataset) (index : Z) : M St (B * L) :=
  x <-- lift (py_index (dataimage me) index) ;;
  y <-- transforms me x ;;
  l <-- lift (py_index (labels me) index) ;;
  ret (y, l).

(** Method calls on a live instance, as a caller (the data loader) issues
    them; the interpreter state is the instance together with the
    transform's state. *)
Inductive call : Type :=
| CallLen
| CallGetitem (index : Z).

Inductive answer : Type :=
| AnsLen (r : exn + Z)
| AnsGetitem (r : exn + (B * L)).

Record world : Type := {
  me : SkinCancerDataset;
  tstate : St
}.

Definition step (c : call) (w : world) : answer * world :=
  match c with
  | CallLen =>
      let '(r, s') := len_ (me w) (tstate w) in
      (AnsLen r, {| me := me w; tstate := s' |})
  | CallGetitem i =>
      let '(r, s') := getitem (me w) i (tstate w) in
      (AnsGetitem r, {| me := me w; tstate := s' |})
  end.

Fixpoint run (cs : list call) (w : world) : list answer * world :=
  match cs with
  | [] => ([], w)
  | c :: cs' =>
      let '(a, w1) := step c w in
      let '(as_, w2) := run cs' w1 in
      (a :: as_, w2)
  end.

End Dataset.

Arguments Build_SkinCancerDataset {A L B St}.
Arguments dataimage {A L B St}.
Arguments labels {A L B St}.
Arguments transforms {A L B St}.
Arguments init {A L B St}.
Arguments len_ {A L B St}.
Arguments getitem {A L B St}.
Arguments AnsLen {L B}.
Arguments AnsGetitem {L B}.
Arguments Build_world {A L B St}.
Arguments me {A L B St}.
Arguments tstate {A L B St}.
Arguments step {A L B St}.
Arguments run {A L B St}.

(** A transform with an internal call counter: each call increments the
    counter and returns its new value. *)
Definition counter {A : Type} (_ : A) : M nat nat :=
  fun n => (inr (S n), S n).

(** The identity transform, stateless. *)
Definition identity {A St : Type} (x : A) : M St A := ret x.

(** A caller of the dataset (a sequential data loader, not part of this
    repository) reading [[ds[i] for i in range(len(ds))]]: [__len__] once,
    then [__getitem__] at [i], [i+1], ... in order; the first exception
    ends the loop and propagates. *)
Fixpoint fetch_from {A L B St : Type} (me0 : SkinCancerDataset A L B St)
  (i : Z) (k : nat) : M St (list (B * L)) :=
  match k with
  | O => ret []
  | S k' =>
      p <-- getitem me0 i ;;
      ps <-- fetch_from me0 (i + 1) k' ;;
      ret (p :: ps)
  end.

Definition fetch_all {A L B St : Type} (me0 : SkinCancerDataset A L B St)
  : M St (list (B * L)) :=
  n <-- len_ me0 ;;
  fetch_from me0 0 (Z.to_nat n).

(** A transform that is a plain Python function: it never raises and keeps
    no state. *)
Definition pure_transform {A B St : Type} (f : A -> B) (x : A) : M St B :=
  ret (f x).

Example py_index_ex1 : py_index [10; 20; 30] (-1) = inr 30.
Proof. reflexivity. Qed.
Example py_index_ex2 : py_index [10; 20; 30] 3 = @inl exn Z IndexError.
Proof. reflexivity. Qed.
Example py_index_ex3 : py_index [10; 20; 30] (-4) = @inl exn Z IndexError.
Proof. reflexivity. Qed.

(** ** List subscripting *)

Section PyIndex.

Context {A : Type}.

Lemma py_index_nonneg (xs : list A) (i : Z) (d : A) :
  0 <= i < Z.of_nat (length xs) ->
  py_index xs i = inr (nth (Z.to_nat i) xs d).
Proof.
  intros [H0 H1]. unfold py_index.
  replace (i <? 0) with false by (symmetry; apply Z.ltb_ge; lia).
  replace (i <? 0) with false by (symmetry; apply Z.ltb_ge; lia).
  replace (Z.of_nat (length xs) <=? i) with false
    by (symmetry; apply Z.leb_gt; lia).
  simpl. rewrite nth_error_nth' with (d := d) by lia. reflexivity.
Qed.

Lemma py_index_negative (xs : list A) (i : Z) (d : A) :
  - Z.of_nat (length xs) <= i < 0 ->
  py_index xs i = inr (nth (Z.to_nat (Z.of_nat (length xs) + i)) xs d).
Proof.
  intros [H0 H1]. unfold py_index.
  replace (i <? 0) with true by (symmetry; apply Z.ltb_lt; lia).
  replace (i + Z.of_nat (length xs) <? 0) with false
    by (symmetry; apply Z.ltb_ge; lia).
  replace (Z.of_nat (length xs) <=? i + Z.of_nat (length xs)) with false
    by (symmetry; apply Z.leb_gt; lia).
  simpl. rewrite nth_error_nth' with (d := d) by lia.
  f_equal. f_equal. f_equal. lia.
Qed.

Lemma py_index_too_big (xs : list A) (i : Z) :
  Z.of_nat (length xs) <= i -> py_index xs i = inl IndexError.
Proof.
  intros H. unfold py_index.
  replace (i <? 0) with false by (symmetry; apply Z.ltb_ge; lia).
  replace (Z.of_nat (length xs) <=? i) with true
    by (symmetry; apply Z.leb_le; lia).
  rewrite Bool.orb_true_r. reflexivity.
Qed.

Lemma py_index_too_small (xs : list A) (i : Z) :
  i < - Z.of_nat (length xs) -> py_index xs i = inl IndexError.
Proof.
  intros H. unfold py_index.
  replace (i <? 0) with true by (symmetry; apply Z.ltb_lt; lia).
  replace (i + Z.of_nat (length xs) <? 0) with true
    by (symmetry; apply Z.ltb_lt; lia).
  reflexivity.
Qed.

End PyIndex.

(** ** Small runs *)

Definition ds_3_2 : SkinCancerDataset nat nat nat nat :=
  {| dataimage := [7; 8; 9]%nat; labels := [0; 1]%nat; transforms := counter |}.

Example getitem_ex1 : getitem ds_3_2 1 5%nat = (inr (6%nat, 1%nat), 6%nat).
Proof. reflexivity. Qed.
Example getitem_ex2 : getitem ds_3_2 2 5%nat = (inl IndexError, 6%nat).
Proof. reflexivity. Qed.
Example getitem_ex3 : getitem ds_3_2 3 5%nat = (inl IndexError, 5%nat).
Proof. reflexivity. Qed.
Example len_ex1 : len_ ds_3_2 5%nat = (inr 3, 5%nat).
Proof. reflexivity. Qed.

(** ** Claims *)

Section Claims.

Context {A L B St : Type}.

(** In range of both lists, fetch returns the transform's output on
    [samples[index]] paired with [labels[index]] (and leaves the transform's state as the transform
    call left it). *)
Lemma getitem_valid_index (samples : list A) (labels0 : list L)
  (t : A -> M St B) (index : Z) (st st' : St) (dA : A) (dL : L) (y : B) :
  0 <= index ->
  index < Z.of_nat (length samples) ->
  index < Z.of_nat (length labels0) ->
  t (nth (Z.to_nat index) samples dA) st = (inr y, st') ->
  getitem {| dataimage := samples; labels := labels0; transforms := t |}
    index st = (inr (y, nth (Z.to_nat index) labels0 dL), st').
Proof.
  intros H0 Hs Hl Ht. unfold getitem, bind, lift, ret; simpl.
  rewrite (py_index_nonneg samples index dA) by lia. rewrite Ht.
  rewrite (py_index_nonneg labels0 index dL) by lia. reflexivity.
Qed.

(** C1: for [0 <= index < len(samples)] and [index < len(labels)], fetch
    returns the transform's output on [samples[index]] paired with
    [labels[index]] (and leaves the transform's state as the transform
    call left it). *)
Theorem getitem_in_range (samples : list A) (labels0 : list L)
  (t : A -> M St B) (index : Z) (st st' : St) (dA : A) (dL : L) (y : B) :
  0 <= index ->
  index < Z.of_nat (length samples) ->
  index < Z.of_nat (length labels0) ->
  t (nth (Z.to_nat index) samples dA) st = (inr y, st') ->
  getitem {| dataimage := samples; labels := labels0; transforms := t |}
    index st = (inr (y, nth (Z.to_nat index) labels0 dL), st').
Proof. exact (getitem_valid_index samples labels0 t index st st' dA dL y). Qed.

(** C2: [__len__] returns [len(samples)], whatever the labels are. *)
Theorem len_is_samples_length (samples : list A) (labels0 : list L)
  (t : A -> M St B) (st : St) :
  len_ {| dataimage := samples; labels := labels0; transforms := t |} st
    = (inr (Z.of_nat (length samples)), st)
  /\ forall labels1 : list L,
       len_ {| dataimage := samples; labels := labels1; transforms := t |} st
       = len_ {| dataimage := samples; labels := labels0; transforms := t |} st.
Proof. split; reflexivity. Qed.

(** C3: a fetch at [index >= len(samples)] raises [IndexError]; no pair is
    returned (and the transform is not called). *)
Theorem getitem_past_end (me0 : SkinCancerDataset A L B St) (index : Z)
  (st : St) :
  Z.of_nat (length (dataimage me0)) <= index ->
  getitem me0 index st = (inl IndexError, st).
Proof.
  intros H. unfold getitem, bind, lift.
  rewrite py_index_too_big by exact H. reflexivity.
Qed.

(** C4: when [labels] is shorter than [samples], [__len__] still reports
    [len(samples)], and a fetch at any index [i] with
    [len(labels) <= i < len(samples)] (e.g. [i = 2] for lengths 3 and 2)
    finds a valid sample, runs the transform on it, and then raises the
    [IndexError] of the label subscript. *)
Theorem labels_shorter_fetch_fails (samples : list A) (labels0 : list L)
  (t : A -> M St B) (index : Z) (st st' : St) (dA : A) (y : B) :
  Z.of_nat (length labels0) <= index < Z.of_nat (length samples) ->
  t (nth (Z.to_nat index) samples dA) st = (inr y, st') ->
  let me0 := {| dataimage := samples; labels := labels0; transforms := t |} in
  len_ me0 st = (inr (Z.of_nat (length samples)), st)
  /\ py_index samples index = inr (nth (Z.to_nat index) samples dA)
  /\ py_index labels0 index = inl IndexError
  /\ getitem me0 index st = (inl IndexError, st').
Proof.
  intros [Hl Hs] Ht me0.
  assert (Hx : py_index samples index = inr (nth (Z.to_nat index) samples dA))
    by (apply py_index_nonneg; lia).
  assert (Hy : py_index labels0 index = inl IndexError)
    by (apply py_index_too_big; lia).
  split; [reflexivity | split; [exact Hx | split; [exact Hy |]]].
  unfold me0, getitem, bind, lift, ret; simpl.
  rewrite Hx, Ht, Hy. reflexivity.
Qed.

(** C7: [__init__] succeeds for any arguments, mismatched lengths
    included, leaves the transform's state untouched (no call of the
    transform), and the instance holds exactly the three arguments. *)
Theorem init_binds_arguments (samples : list A) (labels0 : list L)
  (t : A -> M St B) (st : St) :
  exists me0,
    init samples labels0 t st = (inr me0, st)
    /\ dataimage me0 = samples /\ labels me0 = labels0 /\ transforms me0 = t.
Proof. eexists. split; [reflexivity | repeat split]. Qed.

(** C8: over any sequence of [__len__] and [__getitem__] calls, the instance
    is never changed, and every [__len__] call answers the same value,
    [len(samples)]. *)
Theorem calls_preserve_instance (cs : list call) (w : world A L B St) :
  me (snd (run cs w)) = me w
  /\ Forall (fun a => match a with
                      | AnsLen r => r = inr (Z.of_nat (length (dataimage (me w))))
                      | AnsGetitem _ => True
                      end) (fst (run cs w)).
Proof.
  revert w. induction cs as [| c cs IH]; intros w; simpl.
  - split; [reflexivity | constructor].
  - destruct c as [| i]; simpl.
    + destruct (run cs {| me := me w; tstate := tstate w |}) as [as_ w2] eqn:E.
      specialize (IH {| me := me w; tstate := tstate w |}).
      rewrite E in IH. simpl in *. destruct IH as [IH1 IH2].
      split; [exact IH1 | constructor; [reflexivity | exact IH2]].
    + destruct (getitem (me w) i (tstate w)) as [r s'].
      destruct (run cs {| me := me w; tstate := s' |}) as [as_ w2] eqn:E.
      specialize (IH {| me := me w; tstate := s' |}).
      rewrite E in IH. simpl in *. destruct IH as [IH1 IH2].
      split; [exact IH1 | constructor; [exact I | exact IH2]].
Qed.

(** C9: the transform runs on [samples[index]] before [labels[index]] is
    read.  For [len(labels) <= index < len(samples)] the fetch fails, but
    only after the transform was called: the state the fetch leaves is the
    transform's, and if the transform raises, its exception is the one
    that surfaces. *)
Theorem transform_before_label (samples : list A) (labels0 : list L)
  (t : A -> M St B) (index : Z) (st : St) (dA : A) :
  Z.of_nat (length labels0) <= index < Z.of_nat (length samples) ->
  getitem {| dataimage := samples; labels := labels0; transforms := t |}
    index st =
  match t (nth (Z.to_nat index) samples dA) st with
  | (inl e, st') => (inl e, st')
  | (inr _, st') => (inl IndexError, st')
  end.
Proof.
  intros [Hl Hs]. unfold getitem, bind, lift; simpl.
  rewrite (py_index_nonneg samples index dA) by lia.
  destruct (t (nth (Z.to_nat index) samples dA) st) as [[e | y] st'];
    [reflexivity |].
  rewrite py_index_too_big by lia. reflexivity.
Qed.

(** C10: with lists of common length [N >= 1], a fetch at [-k] for
    [1 <= k <= N] wraps around and returns the transform of
    [samples[N-k]] paired with [labels[N-k]]. *)
Theorem getitem_negative_wraps (samples : list A) (labels0 : list L)
  (t : A -> M St B) (k : Z) (st st' : St) (dA : A) (dL : L) (y : B) :
  length samples = length labels0 ->
  1 <= k <= Z.of_nat (length samples) ->
  t (nth (Z.to_nat (Z.of_nat (length samples) - k)) samples dA) st
    = (inr y, st') ->
  getitem {| dataimage := samples; labels := labels0; transforms := t |}
    (- k) st
  = (inr (y, nth (Z.to_nat (Z.of_nat (length samples) - k)) labels0 dL), st').
Proof.
  intros Hlen Hk Ht. unfold getitem, bind, lift, ret; simpl.
  rewrite (py_index_negative samples (- k) dA) by lia.
  replace (Z.of_nat (length samples) + - k)
    with (Z.of_nat (length samples) - k) by lia.
  rewrite Ht.
  rewrite (py_index_negative labels0 (- k) dL) by lia.
  rewrite <- Hlen.
  replace (Z.of_nat (length samples) + - k)
    with (Z.of_nat (length samples) - k) by lia.
  reflexivity.
Qed.

End Claims.

(** C6: the transform is called once per fetch, with no caching: with the
    counting transform, two fetches at the same valid index return two
    successive, increasing counter values. *)
Theorem getitem_no_memo {A L : Type} (samples : list A) (labels0 : list L)
  (index : Z) (n : nat) (dL : L) :
  0 <= index ->
  index < Z.of_nat (length samples) ->
  index < Z.of_nat (length labels0) ->
  let me0 := {| dataimage := samples; labels := labels0;
                transforms := counter |} in
  let l := nth (Z.to_nat index) labels0 dL in
  getitem me0 index n = (inr (S n, l), S n)
  /\ getitem me0 index (S n) = (inr (S (S n), l), S (S n))
  /\ (S n < S (S n))%nat.
Proof.
  intros H0 Hs Hl me0 l.
  destruct samples as [| a rest]; [simpl in Hs; lia |].
  split; [| split; [| lia]];
    apply (getitem_valid_index (a :: rest) labels0 counter index _ _ a dL);
    auto.
Qed.

(** ** Witnesses and counterexamples *)

Lemma getitem_in_range_witness :
  getitem ds_3_2 1 5%nat = (inr (6%nat, 1%nat), 6%nat).
Proof.
  apply (getitem_in_range [7; 8; 9]%nat [0; 1]%nat counter 1 5%nat 6%nat
           0%nat 0%nat 6%nat); first [lia | reflexivity].
Defined.

Lemma getitem_past_end_witness :
  getitem ds_3_2 3 5%nat = (inl IndexError, 5%nat).
Proof. apply (getitem_past_end ds_3_2 3 5%nat). simpl. lia. Defined.

Lemma labels_shorter_fetch_fails_witness :
  len_ ds_3_2 5%nat = (inr 3, 5%nat)
  /\ py_index [7; 8; 9]%nat 2 = inr 9%nat
  /\ py_index [0; 1]%nat 2 = inl IndexError
  /\ getitem ds_3_2 2 5%nat = (inl IndexError, 6%nat).
Proof.
  apply (labels_shorter_fetch_fails [7; 8; 9]%nat [0; 1]%nat counter 2
           5%nat 6%nat 0%nat 6%nat); simpl; first [lia | reflexivity].
Defined.

(** C5 as stated fails: fetch at [-1] on a one-element dataset returns a
    pair. *)
Lemma getitem_negative_counterexample :
  ~ (forall (me0 : SkinCancerDataset nat nat nat unit) (index : Z) (st : unit),
       index < 0 -> exists e st', getitem me0 index st = (inl e, st')).
Proof.
  intros H.
  destruct (H {| dataimage := [1%nat]; labels := [2%nat];
                 transforms := identity |} (-1) tt ltac:(lia))
    as [e [st' E]].
  discriminate E.
Qed.

Lemma getitem_no_memo_witness :
  getitem ds_3_2 0 5%nat = (inr (6%nat, 0%nat), 6%nat)
  /\ getitem ds_3_2 0 6%nat = (inr (7%nat, 0%nat), 7%nat)
  /\ (6 < 7)%nat.
Proof.
  apply (getitem_no_memo [7; 8; 9]%nat [0; 1]%nat 0 5%nat 0%nat);
    simpl; lia.
Defined.

Lemma transform_before_label_witness :
  getitem ds_3_2 2 5%nat = (inl IndexError, 6%nat).
Proof.
  apply (transform_before_label [7; 8; 9]%nat [0; 1]%nat counter 2 5%nat
           0%nat); simpl; lia.
Defined.

Lemma getitem_negative_wraps_witness :
  getitem {| dataimage := [7; 8; 9]%nat; labels := [0; 1; 2]%nat;
             transforms := counter |} (-1) 5%nat
  = (inr (6%nat, 2%nat), 6%nat).
Proof.
  apply (getitem_negative_wraps [7; 8; 9]%nat [0; 1; 2]%nat counter 1
           5%nat 6%nat 0%nat 0%nat 6%nat); simpl; first [lia | reflexivity].
Defined.

(** ** Further properties of the dataset and of a pass over it *)

Section Extras.

Context {A L B St : Type}.

Lemma py_index_ok_iff {X : Type} (xs : list X) (i : Z) :
  (exists x, py_index xs i = inr x)
  <-> - Z.of_nat (length xs) <= i < Z.of_nat (length xs).
Proof.
  split.
  - intros [x E].
    destruct (Z_lt_le_dec i (- Z.of_nat (length xs))) as [H1 | H1].
    { rewrite py_index_too_small in E by exact H1. discriminate E. }
    destruct (Z_lt_le_dec i (Z.of_nat (length xs))) as [H2 | H2].
    { lia. }
    rewrite py_index_too_big in E by exact H2. discriminate E.
  - intros H. destruct xs as [| d rest]; [simpl in H; lia |].
    destruct (Z_lt_le_dec i 0) as [Hn | Hn].
    + eexists. apply (py_index_negative (d :: rest) i d). lia.
    + eexists. apply (py_index_nonneg (d :: rest) i d). lia.
Qed.

Lemma py_index_error {X : Type} (xs : list X) (i : Z) (e : exn) :
  py_index xs i = inl e -> e = IndexError.
Proof.
  unfold py_index. intros E.
  destruct (orb _ _); [| destruct (nth_error _ _)]; congruence.
Qed.

Lemma getitem_ok (me0 : SkinCancerDataset A L B St) (index : Z) (x : A)
  (y : B) (z : L) (st st' : St) :
  py_index (dataimage me0) index = inr x ->
  transforms me0 x st = (inr y, st') ->
  py_index (labels me0) index = inr z ->
  getitem me0 index st = (inr (y, z), st').
Proof.
  intros E1 E2 E3. unfold getitem, bind, lift, ret.
  rewrite E1, E2, E3. reflexivity.
Qed.

Lemma skipn_nth_cons {X : Type} (xs : list X) (j : nat) (d : X) :
  (j < length xs)%nat -> skipn j xs = nth j xs d :: skipn (S j) xs.
Proof.
  revert j. induction xs as [| a xs IH]; intros j H; simpl in H; [lia |].
  destruct j as [| j]; [reflexivity |].
  simpl. apply IH. lia.
Qed.

(** With a transform that never raises, a fetch returns a pair exactly when
    the index is a valid Python list index of both [samples] and [labels]:
    [-len <= index < len] for each list. *)
Theorem getitem_succeeds_iff (me0 : SkinCancerDataset A L B St)
  (index : Z) (st : St) :
  (forall x s, exists y s', transforms me0 x s = (inr y, s')) ->
  (exists p st', getitem me0 index st = (inr p, st'))
  <-> (- Z.of_nat (length (dataimage me0)) <= index
         < Z.of_nat (length (dataimage me0))
       /\ - Z.of_nat (length (labels me0)) <= index
         < Z.of_nat (length (labels me0))).
Proof.
  intros Htot.
  rewrite <- (py_index_ok_iff (dataimage me0)), <- (py_index_ok_iff (labels me0)).
  unfold getitem, bind, lift, ret.
  destruct (py_index (dataimage me0) index) as [e | x] eqn:E1.
  - split; [intros [p [st' E]]; congruence |].
    intros [[x E] _]. congruence.
  - destruct (Htot x st) as [y [s' Ht]]. rewrite Ht.
    destruct (py_index (labels me0) index) as [e | z] eqn:E2.
    + split; [intros [p [st' E]]; congruence |].
      intros [_ [z E]]. congruence.
    + split; intros _; [split; eexists; reflexivity | eexists; eexists; reflexivity].
Qed.

(** The exceptions a fetch can raise: an [IndexError] from [samples] (the
    transform is then not called and its state is untouched), whatever the
    transform raised, unchanged, or an [IndexError] from [labels] after the
    transform succeeded.  Nothing is caught or wrapped. *)
Theorem getitem_error_sources (me0 : SkinCancerDataset A L B St)
  (index : Z) (st st' : St) (e : exn) :
  getitem me0 index st = (inl e, st') ->
  (py_index (dataimage me0) index = inl IndexError
     /\ e = IndexError /\ st' = st)
  \/ (exists x, py_index (dataimage me0) index = inr x
        /\ transforms me0 x st = (inl e, st'))
  \/ (exists x y, py_index (dataimage me0) index = inr x
        /\ transforms me0 x st = (inr y, st')
        /\ py_index (labels me0) index = inl IndexError
        /\ e = IndexError).
Proof.
  unfold getitem, bind, lift, ret.
  destruct (py_index (dataimage me0) index) as [e1 | x] eqn:E1.
  - intros E. injection E as <- <-. left.
    pose proof (py_index_error _ _ _ E1) as ->. auto.
  - destruct (transforms me0 x st) as [[e2 | y] s1] eqn:E2.
    + intros E. injection E as <- <-. right; left. eauto.
    + destruct (py_index (labels me0) index) as [e3 | z] eqn:E3;
        intros E; [| discriminate E].
      injection E as <- <-. right; right.
      pose proof (py_index_error _ _ _ E3) as ->. eauto 6.
Qed.

(** A negative index [-k] counts from the end of each list separately:
    when the lengths differ, the fetch pairs [samples[len(samples)-k]] with
    [labels[len(labels)-k]], i.e. items from different positions. *)
Theorem getitem_negative_each_end (samples : list A) (labels0 : list L)
  (t : A -> M St B) (k : Z) (st st' : St) (dA : A) (dL : L) (y : B) :
  1 <= k <= Z.of_nat (length samples) ->
  1 <= k <= Z.of_nat (length labels0) ->
  t (nth (Z.to_nat (Z.of_nat (length samples) - k)) samples dA) st
    = (inr y, st') ->
  getitem {| dataimage := samples; labels := labels0; transforms := t |}
    (- k) st
  = (inr (y, nth (Z.to_nat (Z.of_nat (length labels0) - k)) labels0 dL),
     st').
Proof.
  intros Hs Hl Ht.
  apply (getitem_ok _ _ (nth (Z.to_nat (Z.of_nat (length samples) - k)) samples dA));
    simpl.
  - rewrite (py_index_negative samples (- k) dA) by lia.
    do 3 f_equal; lia.
  - exact Ht.
  - rewrite (py_index_negative labels0 (- k) dL) by lia.
    do 3 f_equal; lia.
Qed.

(** With lists of a common length [N], the indices [i] and [i - N] fetch
    the same item, with the same effect on the transform. *)
Theorem getitem_index_alias (me0 : SkinCancerDataset A L B St)
  (index : Z) (st : St) :
  length (dataimage me0) = length (labels me0) ->
  0 <= index < Z.of_nat (length (dataimage me0)) ->
  getitem me0 (index - Z.of_nat (length (dataimage me0))) st
  = getitem me0 index st.
Proof.
  intros Hlen Hi.
  assert (Hsh : forall X (xs : list X), length xs = length (dataimage me0) ->
            py_index xs (index - Z.of_nat (length (dataimage me0)))
            = py_index xs index).
  { intros X xs Hx. destruct xs as [| d rest]; [simpl in Hx; lia |].
    rewrite (py_index_negative (d :: rest) _ d) by lia.
    rewrite (py_index_nonneg (d :: rest) _ d) by lia.
    do 3 f_equal; lia. }
  unfold getitem. rewrite (Hsh _ _ eq_refl), (Hsh _ _ (eq_sym Hlen)).
  reflexivity.
Qed.

Lemma fetch_from_pure (samples : list A) (labels0 : list L) (f : A -> B)
  (dA : A) (dL : L) (st : St) (k j : nat) :
  (j + k = length samples)%nat ->
  (length samples <= length labels0)%nat ->
  fetch_from {| dataimage := samples; labels := labels0;
                transforms := pure_transform f |} (Z.of_nat j) k st
  = (inr (combine (skipn j (map f samples)) (skipn j labels0)), st).
Proof.
  revert j. induction k as [| k IH]; intros j Hjk Hle.
  - simpl. replace j with (length samples) by lia.
    rewrite skipn_all2 by (rewrite length_map; lia). reflexivity.
  - simpl fetch_from. unfold bind at 1.
    rewrite (getitem_ok _ (Z.of_nat j) (nth j samples dA) (f (nth j samples dA))
               (nth j labels0 dL) st st).
    2: { simpl. rewrite (py_index_nonneg samples _ dA) by lia.
         rewrite Nat2Z.id. reflexivity. }
    2: { reflexivity. }
    2: { simpl. rewrite (py_index_nonneg labels0 _ dL) by lia.
         rewrite Nat2Z.id. reflexivity. }
    replace (Z.of_nat j + 1) with (Z.of_nat (S j)) by lia.
    unfold bind. rewrite IH by lia. unfold ret.
    rewrite (skipn_nth_cons (map f samples) j (f dA)) by (rewrite length_map; lia).
    rewrite (skipn_nth_cons labels0 j dL) by lia.
    rewrite map_nth. reflexivity.
Qed.

(** A full pass [[ds[i] for i in range(len(ds))]] with a plain-function
    transform, over labels at least as long as the samples, returns the
    transformed samples zipped with the labels, in order, and leaves no
    trace on the transform's state. *)
Theorem fetch_all_pure (samples : list A) (labels0 : list L) (f : A -> B)
  (st : St) :
  (length samples <= length labels0)%nat ->
  fetch_all {| dataimage := samples; labels := labels0;
               transforms := pure_transform f |} st
  = (inr (combine (map f samples) labels0), st).
Proof.
  intros Hle. unfold fetch_all, len_, bind, ret; simpl.
  rewrite Nat2Z.id.
  destruct samples as [| a rest]; [reflexivity |].
  destruct labels0 as [| b lrest]; [simpl in Hle; lia |].
  exact (fetch_from_pure (a :: rest) (b :: lrest) f a b st _ 0 eq_refl Hle).
Qed.

Lemma fetch_from_hits_label_end (me0 : SkinCancerDataset A L B St)
  (k j : nat) (st : St) :
  (forall x s, exists y s', transforms me0 x s = (inr y, s')) ->
  (j <= length (labels me0))%nat ->
  (length (labels me0) < j + k)%nat ->
  (j + k <= length (dataimage me0))%nat ->
  fst (fetch_from me0 (Z.of_nat j) k st) = inl IndexError.
Proof.
  intros Htot. revert j st. induction k as [| k IH]; intros j st H1 H2 H3;
    [lia |].
  destruct (proj2 (py_index_ok_iff (dataimage me0) (Z.of_nat j)))
    as [x Ex]; [lia |].
  destruct (Htot x st) as [y [s' Ht]].
  simpl fetch_from. unfold bind at 1.
  destruct (Nat.eq_dec j (length (labels me0))) as [Heq | Hne].
  - unfold getitem, bind, lift. rewrite Ex, Ht.
    rewrite py_index_too_big by lia. reflexivity.
  - destruct (proj2 (py_index_ok_iff (labels me0) (Z.of_nat j)))
      as [z Ez]; [lia |].
    rewrite (getitem_ok me0 _ x y z st s' Ex Ht Ez).
    replace (Z.of_nat j + 1) with (Z.of_nat (S j)) by lia.
    unfold bind.
    pose proof (IH (S j) s' ltac:(lia) ltac:(lia) ltac:(lia)) as IHs.
    destruct (fetch_from me0 (Z.of_nat (S j)) k s') as [r s''].
    simpl in IHs. subst r. reflexivity.
Qed.

(** When [labels] is shorter than [samples], a full pass over
    [range(len(ds))] with a transform that never raises always ends in
    [IndexError]: [__len__] promises more items than can be fetched. *)
Theorem fetch_all_labels_shorter (me0 : SkinCancerDataset A L B St)
  (st : St) :
  (forall x s, exists y s', transforms me0 x s = (inr y, s')) ->
  (length (labels me0) < length (dataimage me0))%nat ->
  fst (fetch_all me0 st) = inl IndexError.
Proof.
  intros Htot Hlt. unfold fetch_all, len_, bind, ret; simpl.
  rewrite Nat2Z.id.
  apply (fetch_from_hits_label_end me0 _ 0 st Htot); lia.
Qed.

(** C5 (as amended): a negative index is not rejected as such; it is
    passed to the two list subscripts, each of which wraps it once.  The
    fetch fails whenever [index < -len(samples)] or [index < -len(labels)];
    when [-len(samples) <= index < 0] and [-len(labels) <= index < 0] and the
    transform returns, the fetch returns
    [(transform(samples[len(samples)+index]), labels[len(labels)+index])]. *)
Theorem getitem_negative_index (me0 : SkinCancerDataset A L B St)
  (index : Z) (st : St) (dA : A) (dL : L) :
  index < 0 ->
  ((index < - Z.of_nat (length (dataimage me0))
    \/ index < - Z.of_nat (length (labels me0))) ->
   exists e st', getitem me0 index st = (inl e, st'))
  /\ (forall (y : B) (st' : St),
        - Z.of_nat (length (dataimage me0)) <= index ->
        - Z.of_nat (length (labels me0)) <= index ->
        transforms me0
          (nth (Z.to_nat (Z.of_nat (length (dataimage me0)) + index))
             (dataimage me0) dA) st = (inr y, st') ->
        getitem me0 index st
        = (inr (y, nth (Z.to_nat (Z.of_nat (length (labels me0)) + index))
                     (labels me0) dL), st')).
Proof.
  intros Hneg. split.
  - intros Hout. unfold getitem, bind, lift.
    destruct (Z_lt_le_dec index (- Z.of_nat (length (dataimage me0))))
      as [Hs | Hs].
    + rewrite py_index_too_small by exact Hs. eauto.
    + destruct Hout as [Hs' | Hl]; [lia |].
      destruct (py_index (dataimage me0) index) as [e | x];
        [eauto |].
      destruct (transforms me0 x st) as [[e | y] s1]; [eauto |].
      rewrite py_index_too_small by exact Hl. eauto.
  - intros y st' Hs Hl Ht.
    apply (getitem_ok me0 index
             (nth (Z.to_nat (Z.of_nat (length (dataimage me0)) + index))
                (dataimage me0) dA)).
    + apply py_index_negative. lia.
    + exact Ht.
    + apply py_index_negative. lia.
Qed.

End Extras.

Lemma counter_never_raises :
  forall (x : nat) (s : nat), exists y s', transforms ds_3_2 x s = (inr y, s').
Proof. intros x s. do 2 eexists. reflexivity. Defined.

Lemma getitem_succeeds_iff_witness :
  (exists p st', getitem ds_3_2 (-2) 5%nat = (inr p, st'))
  <-> (-3 <= -2 < 3 /\ -2 <= -2 < 2).
Proof.
  exact (getitem_succeeds_iff ds_3_2 (-2) 5%nat counter_never_raises).
Defined.

Lemma getitem_error_sources_witness :
  (py_index [7; 8; 9]%nat 2 = inl IndexError
     /\ IndexError = IndexError /\ 6%nat = 5%nat)
  \/ (exists x, py_index [7; 8; 9]%nat 2 = inr x
        /\ transforms ds_3_2 x 5%nat = (inl IndexError, 6%nat))
  \/ (exists x y, py_index [7; 8; 9]%nat 2 = inr x
        /\ transforms ds_3_2 x 5%nat = (inr y, 6%nat)
        /\ py_index [0; 1]%nat 2 = inl IndexError
        /\ IndexError = IndexError).
Proof.
  exact (getitem_error_sources ds_3_2 2 5%nat 6%nat IndexError eq_refl).
Defined.

Lemma getitem_negative_each_end_witness :
  getitem ds_3_2 (-1) 5%nat = (inr (6%nat, 1%nat), 6%nat).
Proof.
  apply (getitem_negative_each_end [7; 8; 9]%nat [0; 1]%nat counter 1
           5%nat 6%nat 0%nat 0%nat 6%nat); simpl; first [lia | reflexivity].
Defined.

Lemma getitem_index_alias_witness :
  getitem {| dataimage := [7; 8; 9]%nat; labels := [0; 1; 2]%nat;
             transforms := counter |} (1 - 3) 5%nat
  = getitem {| dataimage := [7; 8; 9]%nat; labels := [0; 1; 2]%nat;
               transforms := counter |} 1 5%nat.
Proof.
  apply (getitem_index_alias
           {| dataimage := [7; 8; 9]%nat; labels := [0; 1; 2]%nat;
              transforms := counter |} 1 5%nat); simpl; first [lia | reflexivity].
Defined.

Lemma fetch_all_pure_witness :
  fetch_all {| dataimage := [7; 8; 9]%nat; labels := [0; 1; 2; 3]%nat;
               transforms := @pure_transform nat nat unit S |} tt
  = (inr [(8, 0); (9, 1); (10, 2)]%nat, tt).
Proof.
  apply (fetch_all_pure [7; 8; 9]%nat [0; 1; 2; 3]%nat S tt). simpl. lia.
Defined.

Lemma fetch_all_labels_shorter_witness :
  fst (fetch_all ds_3_2 5%nat) = inl IndexError.
Proof.
  apply (fetch_all_labels_shorter ds_3_2 5%nat counter_never_raises).
  simpl. lia.
Defined.

Lemma getitem_negative_index_witness :
  (exists e st', getitem ds_3_2 (-3) 5%nat = (inl e, st'))
  /\ getitem ds_3_2 (-1) 5%nat = (inr (6%nat, 1%nat), 6%nat).
Proof.
  split.
  - apply (proj1 (getitem_negative_index ds_3_2 (-3) 5%nat 0%nat 0%nat
                    ltac:(lia))).
    right. simpl. lia.
  - apply (proj2 (getitem_negative_index ds_3_2 (-1) 5%nat 0%nat 0%nat
                    ltac:(lia))); simpl; first [lia | reflexivity].
Defined.
